(** * deep-search-mcp: the tool handlers of [src/index.ts]

    A shallow embedding of the MCP server of [src/index.ts]: the start-up
    guard on [LINKUP_API_KEY], the [ListTools] handler and the [CallTool]
    handler of the [deep_search] tool, together with the part of the
    ECMAScript semantics these handlers rely on ([String(v)], [Number(v)],
    [x || y], [!x], [JSON.stringify(v, null, 2)]).

    Conventions.
    - A JavaScript string is a sequence of code units; [string] carries the
      code units 0..255, one per [ascii].
    - A JavaScript number is an IEEE 754 binary64 value, modelled by
      [spec_float] at precision 53 and maximal exponent 1024.
    - [request.params.arguments] is an optional record; records that are only
      read by key are [gmap string value], object values that get serialised
      keep their insertion order as association lists. *)

From Stdlib Require Import ZArith QArith Qround Lia List Bool Ascii String.
From Stdlib Require Import Floats.SpecFloat.
From stdpp Require Import base option list strings pretty gmap.

Local Open Scope string_scope.
Local Open Scope list_scope.
Local Open Scope Z_scope.

(** ** JavaScript numbers *)

Module Num.

Definition number : Type := spec_float.

Definition prec : Z := 53.
Definition emax : Z := 1024.

Definition NaN : number := S754_nan.
Definition pos_zero : number := S754_zero false.
Definition neg_zero : number := S754_zero true.
Definition Infinity : number := S754_infinity false.

(** The Number value for a mathematical integer (round to nearest, ties to
    even). *)
Definition of_Z (z : Z) : number := binary_normalize prec emax z 0 false.

(** The Number value for [(-1)^neg * m / d], for a denominator [d > 0]. *)
Definition of_ratio (neg : bool) (m : N) (d : positive) : number :=
  match m with
  | N0 => S754_zero neg
  | Npos p => SFdiv prec emax (S754_finite neg p 0) (S754_finite false d 0)
  end.

(** The Number value for [(-1)^neg * m * 10^e]. *)
Definition of_decimal (neg : bool) (m : N) (e : Z) : number :=
  match e with
  | Zneg k => of_ratio neg m (10 ^ k)%positive
  | _ => binary_normalize prec emax ((if neg then -1 else 1) * (Z.of_N m * 10 ^ e)) 0 neg
  end.

Definition is_nan (x : number) : bool :=
  match x with S754_nan => true | _ => false end.

Definition is_zero (x : number) : bool :=
  match x with S754_zero _ => true | _ => false end.

(** [ToBoolean] on a Number: [+0], [-0] and [NaN] are falsy. *)
Definition to_boolean (x : number) : bool := negb (is_zero x || is_nan x).

(** [x || y] on Numbers. *)
Definition or (x y : number) : number := if to_boolean x then x else y.

End Num.

Export Num(number).

(** ** [Number::toString] (radix 10) *)

Module NumToString.

Definition pow10 (z : Z) : Q := Qpower (10 # 1) z.
Definition Qltb (a b : Q) : bool := negb (Qle_bool b a).

(** The mathematical value of the finite positive number [m * 2^e]. *)
Definition real (m : positive) (e : Z) : Q := inject_Z (Zpos m) * Qpower (2 # 1) e.

(** The integer [n] with [10^(n-1) <= num/den < 10^n]: the number of
    decimal digits of the integer part when there is one, otherwise minus
    the number of zeros that follow the decimal point. *)
Fixpoint leading_zeros (fuel : nat) (num den : Z) : Z :=
  match fuel with
  | O => 0
  | S fuel' => if den <=? num * 10 then 0 else 1 + leading_zeros fuel' (num * 10) den
  end.

Definition decade (m : positive) (e : Z) : Z :=
  let num := Zpos m * 2 ^ Z.max e 0 in
  let den := 2 ^ Z.max (- e) 0 in
  if den <=? num then Z.of_nat (String.length (pretty (Z.to_N (num / den))))
  else - leading_zeros 400 num den.

(** [F(s * 10^q) is x] *)
Definition denotes (s q : Z) (x : number) : bool :=
  SFeqb (Num.of_decimal false (Z.to_N s) q) x.

(** The candidate with [k] digits, if there is one: the integer [s] next to
    [x / 10^(n-k)] whose Number value is [x]; of two, the closer to [x];
    of two equally close, the even one. *)
Definition candidate (x : number) (r : Q) (n k : Z) : option Z :=
  let q := n - k in
  let lo := Qfloor (r / pow10 q) in
  let hi := lo + 1 in
  let ok_lo := (10 ^ (k - 1) <=? lo) && denotes lo q x in
  let ok_hi := denotes hi q x in
  match ok_lo, ok_hi with
  | true, true =>
      match Qcompare (r - inject_Z lo * pow10 q) (inject_Z hi * pow10 q - r) with
      | Lt => Some lo
      | Gt => Some hi
      | Eq => Some (if Z.even lo then lo else hi)
      end
  | true, false => Some lo
  | false, true => Some hi
  | false, false => None
  end.

(** The least [k >= k0] with a candidate, together with that candidate. *)
Fixpoint shortest (fuel : nat) (x : number) (r : Q) (n k0 : Z) : Z * Z :=
  match fuel with
  | O => (Qfloor (r / pow10 (n - k0)), k0)
  | S fuel' =>
      match candidate x r n k0 with
      | Some s => (s, k0)
      | None => shortest fuel' x r n (k0 + 1)
      end
  end.

(** [hi = 10^k] stands for the digit 1 one decade up. *)
Definition normalise (s k n : Z) : Z * Z * Z :=
  if s =? 10 ^ k then (1, 1, n + 1) else (s, k, n).

Fixpoint zeros (c : nat) : string :=
  match c with O => "" | S c' => String "0" (zeros c') end.

Definition digits (s : Z) : string := pretty (Z.to_N s).

(** Steps 6 to 10 of [Number::toString]: [s] has the [k] digits of the
    decimal representation, [n] places the decimal point. *)
Definition layout (s k n : Z) : string :=
  let ds := digits s in
  if (k <=? n) && (n <=? 21) then
    ds +:+ zeros (Z.to_nat (n - k))
  else if (0 <? n) && (n <=? 21) then
    substring 0 (Z.to_nat n) ds +:+ "." +:+ substring (Z.to_nat n) (Z.to_nat (k - n)) ds
  else if (-6 <? n) && (n <=? 0) then
    "0." +:+ zeros (Z.to_nat (- n)) +:+ ds
  else
    let e := n - 1 in
    let es := (if e <? 0 then "-" else "+") +:+ digits (Z.abs e) in
    if k =? 1 then ds +:+ "e" +:+ es
    else substring 0 1 ds +:+ "." +:+ substring 1 (Z.to_nat (k - 1)) ds +:+ "e" +:+ es.

Definition positive_finite (m : positive) (e : Z) : string :=
  let x := S754_finite false m e in
  let r := real m e in
  let n := decade m e in
  let '(s, k) := shortest 17 x r n 1 in
  let '(s, k, n) := normalise s k n in
  layout s k n.

Definition to_string (x : number) : string :=
  match x with
  | S754_nan => "NaN"
  | S754_zero _ => "0"
  | S754_infinity false => "Infinity"
  | S754_infinity true => "-Infinity"
  | S754_finite false m e => positive_finite m e
  | S754_finite true m e => "-" +:+ positive_finite m e
  end.

End NumToString.

(** ** [StringToNumber] *)

Module StrToNum.

Local Open Scope N_scope.

(** [StrWhiteSpaceChar]: white space and line terminators. *)
Definition is_white (c : ascii) : bool :=
  let n := N_of_ascii c in
  ((9 <=? n) && (n <=? 13)) || (n =? 32) || (n =? 160).

Fixpoint trim_left (s : string) : string :=
  match s with
  | String c s' => if is_white c then trim_left s' else s
  | EmptyString => s
  end.

Definition trim (s : string) : string :=
  String.rev (trim_left (String.rev (trim_left s))).

Definition digit (base : N) (c : ascii) : option N :=
  let n := N_of_ascii c in
  let v :=
    if (48 <=? n) && (n <=? 57) then Some (n - 48)
    else if (97 <=? n) && (n <=? 102) then Some (n - 87)
    else if (65 <=? n) && (n <=? 70) then Some (n - 55)
    else None in
  match v with
  | Some d => if d <? base then Some d else None
  | None => None
  end.

(** The longest prefix of digits in [base]: the value it adds to [acc], its
    length, and what follows it. *)
Fixpoint run (base : N) (s : string) (acc : N) (len : nat) : N * nat * string :=
  match s with
  | String c s' =>
      match digit base c with
      | Some d => run base s' (acc * base + d) (S len)
      | None => (acc, len, s)
      end
  | EmptyString => (acc, len, s)
  end.

Definition is_empty (s : string) : bool :=
  match s with EmptyString => true | _ => false end.

(** [ExponentPart_opt] up to the end of the string. *)
Definition exponent (s : string) : option Z :=
  match s with
  | EmptyString => Some 0%Z
  | String c s' =>
      if (c =? "e")%char || (c =? "E")%char then
        let '(neg, s'') :=
          match s' with
          | String "-"%char r => (true, r)
          | String "+"%char r => (false, r)
          | _ => (false, s')
          end in
        let '(v, len, rest) := run 10 s'' 0 0 in
        if negb (Nat.eqb len 0) && is_empty rest
        then Some (if neg then (- Z.of_N v)%Z else Z.of_N v)
        else None
      else None
  end.

(** [StrUnsignedDecimalLiteral] up to the end of the string. *)
Definition unsigned_decimal (neg : bool) (s : string) : number :=
  if (s =? "Infinity")%string then S754_infinity neg
  else
    let '(i, ilen, s1) := run 10 s 0 0 in
    let '(f, flen, s2) :=
      match s1 with
      | String "."%char r => run 10 r i 0
      | _ => (i, O, s1)
      end in
    if Nat.eqb (ilen + flen) 0 then Num.NaN
    else
      match exponent s2 with
      | Some e => Num.of_decimal neg f (e - Z.of_nat flen)
      | None => Num.NaN
      end.

(** [NonDecimalIntegerLiteral] after its two-character prefix. *)
Definition non_decimal (base : N) (s : string) : number :=
  let '(v, len, rest) := run base s 0 0 in
  if negb (Nat.eqb len 0) && is_empty rest then Num.of_Z (Z.of_N v) else Num.NaN.

Definition radix_of_prefix (c : ascii) : option N :=
  if (c =? "x")%char || (c =? "X")%char then Some 16
  else if (c =? "o")%char || (c =? "O")%char then Some 8
  else if (c =? "b")%char || (c =? "B")%char then Some 2
  else None.

Definition string_to_number (s : string) : number :=
  match trim s with
  | EmptyString => Num.pos_zero
  | String "+"%char r => unsigned_decimal false r
  | String "-"%char r => unsigned_decimal true r
  | String "0"%char (String c r) as t =>
      match radix_of_prefix c with
      | Some base => non_decimal base r
      | None => unsigned_decimal false t
      end
  | t => unsigned_decimal false t
  end.

End StrToNum.

(** ** JavaScript values *)

(** The values that reach the handlers: the JSON values of a request or of a
    search response, and [undefined], the value of a property that is not
    there. *)
#[warnings="-register-all"]
Inductive value : Type :=
  | VUndefined
  | VNull
  | VBool (b : bool)
  | VNumber (x : number)
  | VString (s : string)
  | VArray (items : list value)
  | VObject (fields : list (string * value)).

Module JS.

(** [ToString(v)], which is what [String(v)] returns for these values.  An
    array goes through [Array.prototype.join], where [undefined] and [null]
    elements give the empty string; any other object goes through
    [Object.prototype.toString]. *)
Fixpoint ToString (v : value) : string :=
  match v with
  | VUndefined => "undefined"
  | VNull => "null"
  | VBool true => "true"
  | VBool false => "false"
  | VNumber x => NumToString.to_string x
  | VString s => s
  | VArray items =>
      String.concat ","
        (List.map (fun x => match x with
                            | VUndefined | VNull => ""
                            | _ => ToString x
                            end) items)
  | VObject _ => "[object Object]"
  end.

(** [ToNumber(v)], which is what [Number(v)] returns for these values.  An
    object is first turned into a primitive: [valueOf] returns the object
    itself, so [toString] is used. *)
Definition ToNumber (v : value) : number :=
  match v with
  | VUndefined => Num.NaN
  | VNull => Num.pos_zero
  | VBool true => Num.of_Z 1
  | VBool false => Num.pos_zero
  | VNumber x => x
  | VString s => StrToNum.string_to_number s
  | VArray _ | VObject _ => StrToNum.string_to_number (ToString v)
  end.

(** [ToBoolean] on a String: only the empty string is falsy. *)
Definition string_to_boolean (s : string) : bool :=
  match s with EmptyString => false | String _ _ => true end.

(** [!s] on a String. *)
Definition not_string (s : string) : bool := negb (string_to_boolean s).

End JS.

(** ** [JSON.stringify] *)

Module JSON.

Definition hex_digit (n : N) : ascii :=
  ascii_of_N (if (n <? 10)%N then 48 + n else 87 + n).

Definition double_quote : ascii := ascii_of_N 34.
Definition backslash : ascii := ascii_of_N 92.

(** A two-character escape sequence, or the start of a longer one. *)
Definition escape (rest : string) : string := String backslash rest.

(** [UnicodeEscape]: a code unit as a [u] escape of four lower-case
    hexadecimal digits. *)
Definition unicode_escape (n : N) : string :=
  escape (String "u" (String (hex_digit (n / 4096 mod 16)) (String (hex_digit (n / 256 mod 16))
          (String (hex_digit (n / 16 mod 16)) (String (hex_digit (n mod 16)) ""))))).

Definition quote_char (c : ascii) : string :=
  let n := N_of_ascii c in
  if (n =? 8)%N then escape "b"
  else if (n =? 9)%N then escape "t"
  else if (n =? 10)%N then escape "n"
  else if (n =? 12)%N then escape "f"
  else if (n =? 13)%N then escape "r"
  else if (n =? 34)%N then escape (String double_quote "")
  else if (n =? 92)%N then escape (String backslash "")
  else if (n <? 32)%N then unicode_escape n
  else String c "".

Fixpoint quote_body (s : string) : string :=
  match s with
  | EmptyString => EmptyString
  | String c s' => quote_char c +:+ quote_body s'
  end.

(** [QuoteJSONString] *)
Definition quote (s : string) : string :=
  String double_quote (quote_body s +:+ String double_quote "").

Definition newline : string := String (ascii_of_N 10) "".

(** The text between the brackets of [SerializeJSONObject] and
    [SerializeJSONArray]. *)
Definition wrap (opening closing indent gap : string) (partial : list string) : string :=
  match partial with
  | [] => opening +:+ closing
  | _ =>
      match gap with
      | EmptyString => opening +:+ String.concat "," partial +:+ closing
      | _ =>
          let stepback := indent in
          let indent := indent +:+ gap in
          opening +:+ newline +:+ indent
          +:+ String.concat ("," +:+ newline +:+ indent) partial
          +:+ newline +:+ stepback +:+ closing
      end
  end.

(** [SerializeJSONProperty]; [None] is [undefined]. *)
Fixpoint serialize (gap indent : string) (v : value) : option string :=
  match v with
  | VUndefined => None
  | VNull => Some "null"
  | VBool true => Some "true"
  | VBool false => Some "false"
  | VNumber x =>
      match x with
      | S754_finite _ _ _ | S754_zero _ => Some (NumToString.to_string x)
      | _ => Some "null"
      end
  | VString s => Some (quote s)
  | VArray items =>
      Some (wrap "[" "]" indent gap
              (List.map (fun x => default "null" (serialize gap (indent +:+ gap) x)) items))
  | VObject fields =>
      Some (wrap "{" "}" indent gap
              (List.flat_map
                 (fun kv =>
                    match serialize gap (indent +:+ gap) (snd kv) with
                    | Some str =>
                        [quote (fst kv) +:+ ":"
                         +:+ (if JS.string_to_boolean gap then " " else "") +:+ str]
                    | None => []
                    end) fields))
  end.

Fixpoint spaces (n : nat) : string :=
  match n with O => "" | S n' => String " " (spaces n') end.

(** [JSON.stringify(v, null, space)] for a numeric [space]: the gap is
    [min(10, space)] spaces. *)
Definition stringify (v : value) (space : nat) : option string :=
  serialize (spaces (Nat.min 10 space)) "" v.

End JSON.

(** ** Errors, the search client and asynchronous handlers

    [linkupClient.search] is the only way the handlers reach the outside
    world.  A handler is therefore written as a tree of what it does: it
    returns, it throws, or it awaits a search; [run] then plays such a tree
    against a search service and keeps the log of the requests it receives. *)

(** [new Error(message)] *)
Inductive JsError : Type := Error (message : string).

(** The errors of the specification's taxonomy as the code throws them. *)
Definition ConfigurationError : JsError := Error "LINKUP_API_KEY environment variable is required".
Definition InvalidArgument : JsError := Error "Search query is required".
Definition UnknownTool : JsError := Error "Unknown tool".

Module Linkup.

(** The argument of [linkupClient.search]. *)
Record SearchParams : Type := {
  query : string;
  depth : string;
  outputType : string;
  includeImages : bool
}.

End Linkup.

Export Linkup(SearchParams).

(** How the promise of [linkupClient.search] settles. *)
Inductive Settled : Type :=
  | Resolved (results : value)
  | Rejected (reason : JsError).

(** The body of an [async] handler: it returns, throws, or awaits a search
    and goes on with what the search resolved to.  There is no [try] in the
    handlers, so a rejected search is thrown to the caller of the handler. *)
Inductive Async (A : Type) : Type :=
  | Return (a : A)
  | Throw (e : JsError)
  | AwaitSearch (params : SearchParams) (k : value -> Async A).

Arguments Return {A} a.
Arguments Throw {A} e.
Arguments AwaitSearch {A} params k.

(** One settled invocation of a handler: what the caller gets, the search
    requests that went out, in order, and the state the outside world is
    left in. *)
Record Execution (World A : Type) : Type := {
  outcome : JsError + A;
  calls : list SearchParams;
  world : World
}.

Arguments outcome {World A} _.
Arguments calls {World A} _.
Arguments world {World A} _.

Section Run.

Context {World : Type}.

(** The search service: any function of the request and of the state of
    the outside world. *)
Variable client : SearchParams -> World -> Settled * World.

Fixpoint run {A : Type} (body : Async A) (w : World) : Execution World A :=
  match body with
  | Return a => {| outcome := inr a; calls := []; world := w |}
  | Throw e => {| outcome := inl e; calls := []; world := w |}
  | AwaitSearch params k =>
      match client params w with
      | (Resolved results, w') =>
          let rest := run (k results) w' in
          {| outcome := outcome rest; calls := params :: calls rest; world := world rest |}
      | (Rejected reason, w') =>
          {| outcome := inl reason; calls := [params]; world := w' |}
      end
  end.

End Run.

(** ** The [ListTools] handler ([index.ts], lines 52 to 76) *)

(** The literal [5]. *)
Definition five : number := Num.of_Z 5.

Module Tool.

Record Descriptor : Type := {
  name : string;
  description : string;
  inputSchema : value
}.

End Tool.

Record ListToolsResult : Type := { tools : list Tool.Descriptor }.

(** The descriptor of the only tool. *)
Definition deep_search_tool : Tool.Descriptor :=
  {|
    Tool.name := "deep_search";
    Tool.description := "Perform a deep web search using LinkUp API";
    Tool.inputSchema := VObject [
      ("type", VString "object");
      ("properties", VObject [
        ("query", VObject [
          ("type", VString "string");
          ("description", VString "Search query")
        ]);
        ("max_results", VObject [
          ("type", VString "number");
          ("default", VNumber five);
          ("description", VString "Maximum number of results to return")
        ])
      ]);
      ("required", VArray [VString "query"])
    ]
  |}.

(** The handler takes no parameter: whatever the request, it returns the
    same object. *)
Definition list_tools_handler : Async ListToolsResult :=
  Return {| tools := [ deep_search_tool ] |}.

(** ** What a schema asks of its instances

    The validation keywords that occur in [inputSchema], with their JSON
    Schema meaning: [type] constrains the kind of the instance, [required]
    lists the properties an object must have, [properties] gives a schema to
    each property that is there.  Every other keyword ([description],
    [default]) is an annotation and constrains nothing. *)

Module Schema.

Fixpoint lookup (key : string) (fields : list (string * value)) : option value :=
  match fields with
  | [] => None
  | (k, v) :: rest => if (k =? key)%string then Some v else lookup key rest
  end.

Definition has_type (t : value) (instance : value) : bool :=
  match t, instance with
  | VString t, VNull => (t =? "null")%string
  | VString t, VBool _ => (t =? "boolean")%string
  | VString t, VNumber _ => (t =? "number")%string
  | VString t, VString _ => (t =? "string")%string
  | VString t, VArray _ => (t =? "array")%string
  | VString t, VObject _ => (t =? "object")%string
  | _, _ => false
  end.

Definition has_required (names : value) (instance : value) : bool :=
  match names, instance with
  | VArray names, VObject fields =>
      forallb (fun p => match p with
                        | VString p => match lookup p fields with
                                       | Some _ => true
                                       | None => false
                                       end
                        | _ => false
                        end) names
  | _, _ => true
  end.

Fixpoint valid (schema : value) (instance : value) {struct schema} : bool :=
  match schema with
  | VBool b => b
  | VObject keywords =>
      forallb
        (fun keyword =>
           if (fst keyword =? "type")%string then has_type (snd keyword) instance
           else if (fst keyword =? "required")%string then has_required (snd keyword) instance
           else if (fst keyword =? "properties")%string then
             match snd keyword, instance with
             | VObject props, VObject fields =>
                 forallb (fun prop =>
                            match lookup (fst prop) fields with
                            | Some x => valid (snd prop) x
                            | None => true
                            end) props
             | _, _ => true
             end
           else true)
        keywords
  | _ => false
  end.

End Schema.

(** ** The [CallTool] handler ([index.ts], lines 82 to 110) *)

Record CallToolParams : Type := {
  name : string;
  arguments : option (gmap string value)
}.

Record CallToolRequest : Type := { params : CallToolParams }.

(** A content block.  Its [text] is what [JSON.stringify] returns, a string
    or [undefined]. *)
Record TextContent : Type := {
  type : string;
  text : option string
}.

Record CallToolResult : Type := { content : list TextContent }.

(** [request.params.arguments?.key] *)
Definition argument (request : CallToolRequest) (key : string) : value :=
  match arguments (params request) with
  | None => VUndefined
  | Some args => default VUndefined (args !! key)
  end.

(** [const query = String(request.params.arguments?.query)] *)
Definition query (request : CallToolRequest) : string :=
  JS.ToString (argument request "query").

(** [const maxResults = Number(request.params.arguments?.max_results) || 5] *)
Definition maxResults (request : CallToolRequest) : number :=
  Num.or (JS.ToNumber (argument request "max_results")) five.

(** The request that [deep_search] sends for a query. *)
Definition search_request (q : string) : SearchParams :=
  {| Linkup.query := q;
     Linkup.depth := "deep";
     Linkup.outputType := "sourcedAnswer";
     Linkup.includeImages := false |}.

(** The handler: a [switch] on [request.params.name] with the case
    ["deep_search"] and a [default] that throws. *)
Definition call_tool_handler (request : CallToolRequest) : Async CallToolResult :=
  if (name (params request) =? "deep_search")%string then
    let query := query request in
    let maxResults := maxResults request in
    if JS.not_string query then Throw (Error "Search query is required")
    else
      AwaitSearch (search_request query) (fun results =>
      Return {| content := [ {| type := "text"; text := JSON.stringify results 2 |} ] |})
  else Throw (Error "Unknown tool").

(** ** Start-up ([index.ts], lines 26 to 46 and 116 to 124) *)

Module Startup.

Inductive RequestSchema : Type := ListToolsRequestSchema | CallToolRequestSchema.

(** What the module does, in order, while it loads and starts. *)
Inductive Event : Type :=
  | NewLinkupClient (apiKey : option string)
  | NewServer (server_name version : string)
  | SetRequestHandler (schema : RequestSchema)
  | NewStdioServerTransport
  | Connect
  | ConsoleError (label : string) (e : JsError).

(** How start-up ends: the server is connected and waits for requests, the
    module threw while loading (the process dies of the uncaught error
    before [main] is reached), or [main] failed and the process exits with
    the given status. *)
Inductive Status : Type :=
  | Serving
  | Uncaught (e : JsError)
  | Exited (code : Z).

(** [!process.env.NAME]: a variable that is not set reads as [undefined],
    a variable that is set reads as its string. *)
Definition not_env (v : option string) : bool :=
  match v with
  | None => true
  | Some s => JS.not_string s
  end.

(** [main()], for the way [server.connect] settles: what it does, and the
    error it is rejected with, if any. *)
Definition main (connect : option JsError) : list Event * option JsError :=
  ([NewStdioServerTransport; Connect], connect).

(** The module body, for the environment as it is once [dotenv/config] has
    been imported, and for the way [server.connect] settles. *)
Definition startup (env : gmap string string) (connect : option JsError)
  : list Event * Status :=
  if not_env (env !! "LINKUP_API_KEY")
  then ([], Uncaught (Error "LINKUP_API_KEY environment variable is required"))
  else
    let loaded :=
      [ NewLinkupClient (env !! "LINKUP_API_KEY");
        NewServer "deep-search-mcp" "0.1.0";
        SetRequestHandler ListToolsRequestSchema;
        SetRequestHandler CallToolRequestSchema ] in
    match main connect with
    | (started, None) => (loaded ++ started, Serving)
    | (started, Some error) =>
        (loaded ++ started ++ [ConsoleError "Server error:" error], Exited 1)
    end.

End Startup.

(** ** Vocabulary of the properties *)

(** A key is absent from a request when there is no [arguments] record or
    when the record has no such key. *)
Definition absent (request : CallToolRequest) (key : string) : Prop :=
  match arguments (params request) with
  | None => True
  | Some args => args !! key = None
  end.



Definition deep_search_schema : value := Tool.inputSchema deep_search_tool.

(** The [default] annotation that a schema gives to one of its properties. *)
Definition declared_default (schema : value) (property : string) : option value :=
  match schema with
  | VObject keywords =>
      match Schema.lookup "properties" keywords with
      | Some (VObject props) =>
          match Schema.lookup property props with
          | Some (VObject annotations) => Schema.lookup "default" annotations
          | _ => None
          end
      | _ => None
      end
  | _ => None
  end.

Definition is_new_client (e : Startup.Event) : bool :=
  match e with
  | Startup.NewLinkupClient _ => true
  | _ => false
  end.

(** ** Requests and a search service to try the handlers on *)


(** [{ name: "deep_search", arguments: {} }] *)
Definition missing_query_request : CallToolRequest :=
  {| params := {| name := "deep_search"; arguments := Some ∅ |} |}.


(** [{ name: "deep_search", arguments: { query: "capital of France",
    max_results: 3 } }] *)
Definition france_request : CallToolRequest :=
  {| params := {| name := "deep_search";
                  arguments := Some {[ "query" := VString "capital of France";
                                       "max_results" := VNumber (Num.of_Z 3) ]} |} |}.


(** [{ name: "deep_search", arguments: { query: "q", max_results: v } }] *)
Definition request_with_max_results (v : value) : CallToolRequest :=
  {| params := {| name := "deep_search";
                  arguments := Some {[ "query" := VString "q"; "max_results" := v ]} |} |}.

(** [{ name: "unknown_tool", arguments: { query: "x" } }] *)
Definition unknown_tool_request : CallToolRequest :=
  {| params := {| name := "unknown_tool";
                  arguments := Some {[ "query" := VString "x" ]} |} |}.

(** A search service that answers with the query it was asked and counts
    the requests it has served. *)
Definition echo_client (p : SearchParams) (served : nat) : Settled * nat :=
  (Resolved (VObject [("answer", VString (Linkup.query p)); ("sources", VArray [])]), S served).

(** ** Further vocabulary *)

(** The tools that [list_tools_handler] returns. *)
Definition listed_tools : list Tool.Descriptor :=
  match list_tools_handler with
  | Return result => tools result
  | _ => []
  end.

(** A call of the tool [tool] whose [arguments] record has the properties
    [fields] (of two bindings of a key, the first counts). *)
Definition call_with (tool : string) (fields : list (string * value)) : CallToolRequest :=
  {| params := {| name := tool; arguments := Some (list_to_map fields) |} |}.



(** An environment with a key, and what start-up does in it before it
    connects. *)
Definition secret_env : gmap string string := {[ "LINKUP_API_KEY" := "secret" ]}.

Definition loaded_with_secret : list Startup.Event :=
  [ Startup.NewLinkupClient (Some "secret");
    Startup.NewServer "deep-search-mcp" "0.1.0";
    Startup.SetRequestHandler Startup.ListToolsRequestSchema;
    Startup.SetRequestHandler Startup.CallToolRequestSchema;
    Startup.NewStdioServerTransport ].

(** * Properties *)

(** ** Numbers and their texts *)

Example number_to_string_examples :
  NumToString.to_string (Num.of_Z 5) = "5"
  /\ NumToString.to_string (Num.of_decimal false 1 (-1)) = "0.1"
  /\ NumToString.to_string (Num.of_decimal true 125 (-1)) = "-12.5"
  /\ NumToString.to_string (Num.of_decimal false 1 21) = "1e+21"
  /\ NumToString.to_string (Num.of_decimal false 1 (-7)) = "1e-7"
  /\ NumToString.to_string (SFadd Num.prec Num.emax (Num.of_decimal false 1 (-1))
                                  (Num.of_decimal false 2 (-1)))
     = "0.30000000000000004"
  /\ NumToString.to_string (S754_finite false 1 (-1074)) = "5e-324"
  /\ NumToString.to_string Num.neg_zero = "0".
Proof. vm_compute. tauto. Qed.

Example string_to_number_examples :
  StrToNum.string_to_number "" = Num.pos_zero
  /\ StrToNum.string_to_number "  3 " = Num.of_Z 3
  /\ StrToNum.string_to_number "-0" = Num.neg_zero
  /\ StrToNum.string_to_number "0x1F" = Num.of_Z 31
  /\ StrToNum.string_to_number ".5e1" = Num.of_Z 5
  /\ StrToNum.string_to_number "1e400" = Num.Infinity
  /\ StrToNum.string_to_number "12px" = Num.NaN
  /\ StrToNum.string_to_number "[object Object]" = Num.NaN.
Proof. vm_compute. tauto. Qed.

(** The text of a number reads back as that number. *)
Example number_text_round_trip :
  Forall (fun x => StrToNum.string_to_number (NumToString.to_string x) = x)
    [ Num.of_Z 5; Num.of_decimal false 1 (-1); Num.of_decimal true 4 (-324);
      Num.of_decimal false 17976931348623157 292; Num.of_decimal false 1 23;
      Num.of_ratio false 1 3; Num.of_ratio true 2 3; Num.Infinity; Num.pos_zero ].
Proof.
  repeat (apply List.Forall_cons; [vm_compute; reflexivity|]). apply List.Forall_nil.
Qed.







(** ** Coercions *)


Lemma not_string_false (s : string) : JS.not_string s = false <-> s <> "".
Proof. destruct s; cbv; split; congruence. Qed.








(** ** The three ways through [call_tool_handler] *)

Lemma handler_unknown_tool (request : CallToolRequest) :
  name (params request) <> "deep_search" ->
  call_tool_handler request = Throw UnknownTool.
Proof.
  intros Hname. unfold call_tool_handler.
  destruct (String.eqb_spec (name (params request)) "deep_search") as [E|_].
  - contradiction.
  - reflexivity.
Qed.

Lemma handler_empty_query (request : CallToolRequest) :
  name (params request) = "deep_search" ->
  query request = "" ->
  call_tool_handler request = Throw InvalidArgument.
Proof.
  intros Hname Hquery. unfold call_tool_handler.
  rewrite Hname, Hquery. reflexivity.
Qed.

Lemma handler_search (request : CallToolRequest) :
  name (params request) = "deep_search" ->
  query request <> "" ->
  call_tool_handler request =
    AwaitSearch (search_request (query request)) (fun results =>
    Return {| content := [ {| type := "text"; text := JSON.stringify results 2 |} ] |}).
Proof.
  intros Hname Hquery. unfold call_tool_handler.
  rewrite Hname. simpl.
  apply not_string_false in Hquery. rewrite Hquery. reflexivity.
Qed.



(** ** What [run] records *)

Section RunFacts.

Context {World : Type} (client : SearchParams -> World -> Settled * World).

Lemma run_throw {A : Type} (e : JsError) (w : World) :
  run client (Throw e : Async A) w = {| outcome := inl e; calls := []; world := w |}.
Proof. reflexivity. Qed.

(** A body that awaits a search and then returns performs that one search,
    whatever it settles to. *)
Lemma calls_await_return {A : Type} (p : SearchParams) (f : value -> A) (w : World) :
  calls (run client (AwaitSearch p (fun results => Return (f results))) w) = [p].
Proof.
  simpl. destruct (client p w) as [[results|reason] w']; reflexivity.
Qed.


(** A rejected search is what the caller of the handler gets. *)
Lemma outcome_await_rejected {A : Type} (p : SearchParams) (k : value -> Async A)
      (w w' : World) (reason : JsError) :
  client p w = (Rejected reason, w') ->
  outcome (run client (AwaitSearch p k) w) = inl reason.
Proof. simpl. intros ->. reflexivity. Qed.

(** No handler of this server searches more than once. *)
Lemma at_most_one_call (request : CallToolRequest) (w : World) :
  (length (calls (run client (call_tool_handler request) w)) <= 1)%nat
  /\ calls (run client list_tools_handler w) = [].
Proof.
  split; [|reflexivity].
  destruct (string_dec (name (params request)) "deep_search") as [Hname|Hname].
  - destruct (string_dec (query request) "") as [Hempty|Hquery].
    + rewrite (handler_empty_query request Hname Hempty). simpl. lia.
    + rewrite (handler_search request Hname Hquery), calls_await_return. simpl. lia.
  - rewrite (handler_unknown_tool request Hname). simpl. lia.
Qed.

End RunFacts.

(** ** The query *)







(** C1. At the request [{ name: "deep_search", arguments: {} }] the coerced
    query is ["undefined"], not the empty string; the handler does not throw
    [InvalidArgument] and one search request goes out.  The guard that
    throws "Search query is required" is never reached by a request whose
    query is missing. *)
Theorem C1_missing_query_is_not_rejected :
  absent missing_query_request "query"
  /\ query missing_query_request <> ""
  /\ call_tool_handler missing_query_request <> Throw InvalidArgument
  /\ forall (World : Type) (client : SearchParams -> World -> Settled * World) (w : World),
       calls (run client (call_tool_handler missing_query_request) w)
       = [ search_request "undefined" ].
Proof.
  assert (Hquery : query missing_query_request = "undefined") by reflexivity.
  assert (Hsearch := handler_search missing_query_request eq_refl).
  rewrite Hquery in Hsearch.
  split; [reflexivity|]. split; [rewrite Hquery; discriminate|].
  rewrite Hsearch by discriminate. split.
  - discriminate.
  - intros World client w. apply calls_await_return.
Qed.

(** ** Dispatch on the tool name *)

(** C6. A call whose tool name is not ["deep_search"] fails with
    [UnknownTool].  The handler is the [throw] of the [default] branch and
    nothing else: no search request goes out, the outside world is left as
    it was, and the arguments of the request play no part. *)
Theorem C6_unknown_tool (request : CallToolRequest) :
  name (params request) <> "deep_search" ->
  call_tool_handler request = Throw UnknownTool
  /\ (forall (World : Type) (client : SearchParams -> World -> Settled * World) (w : World),
        run client (call_tool_handler request) w
        = {| outcome := inl UnknownTool; calls := []; world := w |})
  /\ (forall other : option (gmap string value),
        call_tool_handler {| params := {| name := name (params request); arguments := other |} |}
        = call_tool_handler request).
Proof.
  intros Hname.
  pose proof (handler_unknown_tool request Hname) as Hthrow.
  split; [exact Hthrow|]. split.
  - intros World client w. rewrite Hthrow. apply run_throw.
  - intros other. rewrite Hthrow. apply handler_unknown_tool. exact Hname.
Qed.

Lemma C6_unknown_tool_witness :
  call_tool_handler unknown_tool_request = Throw UnknownTool
  /\ (forall (World : Type) (client : SearchParams -> World -> Settled * World) (w : World),
        run client (call_tool_handler unknown_tool_request) w
        = {| outcome := inl UnknownTool; calls := []; world := w |})
  /\ (forall other : option (gmap string value),
        call_tool_handler {| params := {| name := "unknown_tool"; arguments := other |} |}
        = call_tool_handler unknown_tool_request).
Proof.
  apply (C6_unknown_tool unknown_tool_request). simpl. discriminate.
Defined.

(** ** The number of results *)



(** Values that are not numbers may still be numeric: [true] coerces to 1
    and the one-element array [[7]] to 7, while [null] and the empty array
    coerce to zero and so give the default. *)
Example max_results_of_other_values :
  maxResults (request_with_max_results (VBool true)) = Num.of_Z 1
  /\ maxResults (request_with_max_results (VArray [VNumber (Num.of_Z 7)])) = Num.of_Z 7
  /\ maxResults (request_with_max_results VNull) = Num.of_Z 5
  /\ maxResults (request_with_max_results (VArray [])) = Num.of_Z 5
  /\ maxResults (request_with_max_results (VObject [])) = Num.of_Z 5.
Proof. vm_compute. tauto. Qed.



(** ** The result of a successful search *)



(** The text of that block, line by line. *)
Example france_payload :
  JSON.stringify (VObject [("answer", VString "capital of France"); ("sources", VArray [])]) 2
  = Some (String.concat JSON.newline
            [ "{";
              "  " +:+ JSON.quote "answer" +:+ ": " +:+ JSON.quote "capital of France" +:+ ",";
              "  " +:+ JSON.quote "sources" +:+ ": []";
              "}" ]).
Proof. vm_compute. reflexivity. Qed.

(** ** The list of tools *)

(** An instance of the schema is an object that has a string [query], and
    whose [max_results], if it has one, is a number. *)
Lemma schema_instances (instance : value) :
  Schema.valid deep_search_schema instance = true ->
  exists fields : list (string * value),
    instance = VObject fields
    /\ (exists s : string, Schema.lookup "query" fields = Some (VString s))
    /\ (forall x : value, Schema.lookup "max_results" fields = Some x ->
                          exists n : number, x = VNumber n).
Proof.
  intros Hvalid.
  destruct instance as [| |b|x|s|items|fields]; try discriminate Hvalid.
  exists fields. split; [reflexivity|].
  cbn in Hvalid.
  apply andb_prop in Hvalid as [Hproperties Hrequired].
  apply andb_prop in Hproperties as [Hquery Hmax].
  destruct (Schema.lookup "query" fields) as [q|]; [|discriminate Hrequired].
  destruct q; try discriminate Hquery.
  split; [eexists; reflexivity|].
  intros y Hy. rewrite Hy in Hmax.
  destruct y; try discriminate Hmax. eexists; reflexivity.
Qed.

(** C7, as the code has it.  Every list-tools request is answered with the
    same one-element list, the descriptor of ["deep_search"]; the handler
    returns it without a search, without touching the outside world and
    without a way to fail.  The input schema requires a [query] that is a
    string (of any length, the empty string included) and declares an
    optional numeric [max_results] whose default is 5. *)
Theorem C7_list_tools_is_static :
  (forall (World : Type) (client : SearchParams -> World -> Settled * World) (w : World),
     run client list_tools_handler w
     = {| outcome := inr {| tools := [deep_search_tool] |}; calls := []; world := w |})
  /\ Tool.name deep_search_tool = "deep_search"
  /\ (forall instance : value,
        Schema.valid deep_search_schema instance = true ->
        exists fields : list (string * value),
          instance = VObject fields
          /\ (exists s : string, Schema.lookup "query" fields = Some (VString s))
          /\ (forall x : value, Schema.lookup "max_results" fields = Some x ->
                                exists n : number, x = VNumber n))
  /\ (forall s : string,
        Schema.valid deep_search_schema (VObject [("query", VString s)]) = true)
  /\ (forall (s : string) (n : number),
        Schema.valid deep_search_schema
          (VObject [("query", VString s); ("max_results", VNumber n)]) = true)
  /\ declared_default deep_search_schema "max_results" = Some (VNumber (Num.of_Z 5)).
Proof.
  split; [reflexivity|]. split; [reflexivity|].
  split; [exact schema_instances|].
  split; [reflexivity|]. split; reflexivity.
Qed.

Lemma C7_list_tools_is_static_witness :
  exists fields : list (string * value),
    VObject [("query", VString "capital of France"); ("max_results", VNumber (Num.of_Z 3))]
    = VObject fields
    /\ (exists s : string, Schema.lookup "query" fields = Some (VString s))
    /\ (forall x : value, Schema.lookup "max_results" fields = Some x ->
                          exists n : number, x = VNumber n).
Proof.
  apply (proj1 (proj2 (proj2 C7_list_tools_is_static))
           (VObject [("query", VString "capital of France");
                     ("max_results", VNumber (Num.of_Z 3))])).
  reflexivity.
Defined.

(** C7, as stated, fails: the schema does not ask for a non-empty [query].
    The arguments [{ query: "" }] are an instance of it. *)
Lemma C7_schema_accepts_empty_query :
  Schema.valid deep_search_schema (VObject [("query", VString "")]) = true
  /\ ~ (forall instance : value,
          Schema.valid deep_search_schema instance = true ->
          exists (fields : list (string * value)) (s : string),
            instance = VObject fields
            /\ Schema.lookup "query" fields = Some (VString s)
            /\ s <> "").
Proof.
  split; [reflexivity|].
  intros Hrequires.
  destruct (Hrequires (VObject [("query", VString "")]) eq_refl)
    as (fields & s & Hfields & Hlookup & Hnonempty).
  injection Hfields as <-. simpl in Hlookup.
  injection Hlookup as <-. apply Hnonempty. reflexivity.
Qed.

(** ** Start-up *)

Lemma startup_loaded (env : gmap string string) (connect : option JsError) :
  Startup.not_env (env !! "LINKUP_API_KEY") = false ->
  exists rest : list Startup.Event,
    fst (Startup.startup env connect)
    = [ Startup.NewLinkupClient (env !! "LINKUP_API_KEY");
        Startup.NewServer "deep-search-mcp" "0.1.0";
        Startup.SetRequestHandler Startup.ListToolsRequestSchema;
        Startup.SetRequestHandler Startup.CallToolRequestSchema;
        Startup.NewStdioServerTransport;
        Startup.Connect ] ++ rest
    /\ List.filter is_new_client rest = [].
Proof.
  intros Hset. unfold Startup.startup. rewrite Hset.
  destruct connect as [error|].
  - exists [Startup.ConsoleError "Server error:" error]. split; reflexivity.
  - exists []. split; reflexivity.
Qed.

(** C8, as the code has it.  If [LINKUP_API_KEY] is not set, or is set to
    the empty string, loading the module throws [ConfigurationError]: the
    process dies of it before a client or a server exists, before a handler
    is registered and before the transport is connected.  If it is set to a
    non-empty string, the module loads, the search client is constructed
    exactly once, with that key, and the server is connected; it serves
    once the connection succeeds. *)
Theorem C8_startup_guard (env : gmap string string) (connect : option JsError) :
  (env !! "LINKUP_API_KEY" = None \/ env !! "LINKUP_API_KEY" = Some "" ->
   Startup.startup env connect = ([], Startup.Uncaught ConfigurationError))
  /\ (forall apiKey : string,
        env !! "LINKUP_API_KEY" = Some apiKey -> apiKey <> "" ->
        List.filter is_new_client (fst (Startup.startup env connect))
        = [Startup.NewLinkupClient (Some apiKey)]
        /\ In Startup.Connect (fst (Startup.startup env connect))
        /\ snd (Startup.startup env None) = Startup.Serving).
Proof.
  split.
  - intros [Hunset|Hempty]; unfold Startup.startup.
    + rewrite Hunset. reflexivity.
    + rewrite Hempty. reflexivity.
  - intros apiKey Hkey Hnonempty.
    assert (Hset : Startup.not_env (env !! "LINKUP_API_KEY") = false).
    { rewrite Hkey. simpl. apply not_string_false. exact Hnonempty. }
    destruct (startup_loaded env connect Hset) as (rest & Hevents & Hrest).
    rewrite Hevents, Hkey. repeat split.
    + simpl. rewrite Hrest. reflexivity.
    + simpl. tauto.
    + unfold Startup.startup. rewrite Hset. reflexivity.
Qed.

Lemma C8_startup_guard_witness :
  Startup.startup ∅ None = ([], Startup.Uncaught ConfigurationError)
  /\ List.filter is_new_client
       (fst (Startup.startup {[ "LINKUP_API_KEY" := "secret" ]} None))
     = [Startup.NewLinkupClient (Some "secret")]
  /\ In Startup.Connect (fst (Startup.startup {[ "LINKUP_API_KEY" := "secret" ]} None))
  /\ snd (Startup.startup {[ "LINKUP_API_KEY" := "secret" ]} None) = Startup.Serving.
Proof.
  split.
  - apply (proj1 (C8_startup_guard ∅ None)). left. reflexivity.
  - apply (proj2 (C8_startup_guard {[ "LINKUP_API_KEY" := "secret" ]} None) "secret").
    + reflexivity.
    + discriminate.
Defined.

(** C8, as stated, fails for a key that is present but empty: start-up does
    not proceed, it is as fatal as a key that is not set. *)
Lemma C8_empty_key_is_fatal :
  ({[ "LINKUP_API_KEY" := "" ]} : gmap string string) !! "LINKUP_API_KEY" = Some ""
  /\ Startup.startup {[ "LINKUP_API_KEY" := "" ]} None
     = ([], Startup.Uncaught ConfigurationError).
Proof. split; reflexivity. Qed.

(** * Further properties of the handlers *)

(** ** Failure of the search *)



(** ** Which queries are rejected *)



(** ** What goes out to the search service *)

(** X3. Whatever the request and whatever the service answers, a call sends
    at most one search request, and a request that goes out belongs to a
    [deep_search] call with a non-empty query and is the deep search for
    that query: no other depth, no other output type, never with images. *)
Theorem X3_only_deep_searches
    {World : Type} (client : SearchParams -> World -> Settled * World)
    (request : CallToolRequest) (w : World) :
  (length (calls (run client (call_tool_handler request) w)) <= 1)%nat
  /\ forall p : SearchParams,
       In p (calls (run client (call_tool_handler request) w)) ->
       name (params request) = "deep_search"
       /\ query request <> ""
       /\ p = search_request (query request)
       /\ Linkup.depth p = "deep"
       /\ Linkup.outputType p = "sourcedAnswer"
       /\ Linkup.includeImages p = false.
Proof.
  destruct (string_dec (name (params request)) "deep_search") as [Hname|Hname].
  - destruct (string_dec (query request) "") as [Hempty|Hquery].
    + rewrite (handler_empty_query request Hname Hempty). simpl.
      split; [lia|]. intros p [].
    + rewrite (handler_search request Hname Hquery), calls_await_return. simpl.
      split; [lia|]. intros p [<-|[]]. repeat split; assumption.
  - rewrite (handler_unknown_tool request Hname). simpl.
    split; [lia|]. intros p [].
Qed.

Lemma X3_only_deep_searches_witness :
  name (params france_request) = "deep_search"
  /\ query france_request <> ""
  /\ search_request "capital of France" = search_request (query france_request)
  /\ Linkup.depth (search_request "capital of France") = "deep"
  /\ Linkup.outputType (search_request "capital of France") = "sourcedAnswer"
  /\ Linkup.includeImages (search_request "capital of France") = false.
Proof.
  apply (proj2 (X3_only_deep_searches echo_client france_request 0%nat)
           (search_request "capital of France")).
  vm_compute. left. reflexivity.
Defined.


(** ** The list of tools and the dispatch *)

(** X6. The call handler and the list of tools agree: a call is dispatched
    (it does not fail with "Unknown tool") exactly when its tool name is the
    name of a tool that the list-tools handler returns. *)
Theorem X6_listed_tools_are_the_callable_ones (request : CallToolRequest) :
  (exists tool : Tool.Descriptor,
     In tool listed_tools /\ Tool.name tool = name (params request))
  <-> call_tool_handler request <> Throw UnknownTool.
Proof.
  split.
  - intros (tool & [<-|[]] & Hname). symmetry in Hname. simpl in Hname.
    destruct (string_dec (query request) "") as [Hempty|Hquery].
    + rewrite (handler_empty_query request Hname Hempty). discriminate.
    + rewrite (handler_search request Hname Hquery). discriminate.
  - intros Hdispatched.
    destruct (string_dec (name (params request)) "deep_search") as [Hname|Hname].
    + exists deep_search_tool. split; [left; reflexivity|]. symmetry. exact Hname.
    + destruct (Hdispatched (handler_unknown_tool request Hname)).
Qed.

Lemma X6_listed_tools_are_the_callable_ones_witness :
  call_tool_handler france_request <> Throw UnknownTool.
Proof.
  apply (proj1 (X6_listed_tools_are_the_callable_ones france_request)).
  exists deep_search_tool. split; [left; reflexivity|reflexivity].
Defined.

(** Reading a key of the record made of [fields]. *)
Lemma lookup_call_with (tool : string) (fields : list (string * value)) (key : string) :
  argument (call_with tool fields) key = default VUndefined (Schema.lookup key fields).
Proof.
  unfold argument, call_with. simpl. f_equal.
  induction fields as [|[k v] fields IH]; simpl.
  - apply lookup_empty.
  - destruct (String.eqb_spec k key) as [->|Hne].
    + apply lookup_insert_eq.
    + rewrite lookup_insert_ne by exact Hne. exact IH.
Qed.

(** X7. For arguments that satisfy the input schema of the tool, the query
    that is searched is the [query] string itself, and the call is rejected
    exactly when that string is empty: the empty query is the one instance
    of the schema that the handler refuses. *)
Theorem X7_schema_instances_and_the_handler (fields : list (string * value)) :
  Schema.valid deep_search_schema (VObject fields) = true ->
  Schema.lookup "query" fields = Some (VString (query (call_with "deep_search" fields)))
  /\ (call_tool_handler (call_with "deep_search" fields) = Throw InvalidArgument
      <-> Schema.lookup "query" fields = Some (VString "")).
Proof.
  intros Hvalid.
  destruct (schema_instances _ Hvalid) as (fields' & [= <-] & [s Hs] & _).
  assert (Hquery : query (call_with "deep_search" fields) = s).
  { unfold query. rewrite lookup_call_with, Hs. reflexivity. }
  rewrite Hquery. split; [exact Hs|].
  rewrite Hs. split.
  - intros Hthrow. destruct (string_dec s "") as [->|Hne]; [reflexivity|].
    rewrite (handler_search (call_with "deep_search" fields) eq_refl) in Hthrow
      by (rewrite Hquery; exact Hne).
    discriminate Hthrow.
  - intros [= ->]. apply handler_empty_query; [reflexivity|exact Hquery].
Qed.

Lemma X7_schema_instances_and_the_handler_witness :
  Schema.lookup "query" [("query", VString ""); ("max_results", VNumber (Num.of_Z 3))]
  = Some (VString (query (call_with "deep_search"
                            [("query", VString ""); ("max_results", VNumber (Num.of_Z 3))])))
  /\ (call_tool_handler (call_with "deep_search"
                           [("query", VString ""); ("max_results", VNumber (Num.of_Z 3))])
      = Throw InvalidArgument
      <-> Schema.lookup "query" [("query", VString ""); ("max_results", VNumber (Num.of_Z 3))]
          = Some (VString "")).
Proof.
  apply (X7_schema_instances_and_the_handler
           [("query", VString ""); ("max_results", VNumber (Num.of_Z 3))]).
  reflexivity.
Defined.

(** ** The result of a settled search *)



(** ** The order of start-up *)

(** X10. The transport is never connected before the search client exists
    and both handlers are registered: in every start-up, what precedes the
    connection contains the construction of the client, with the key of the
    environment, the registration of the list-tools handler and the
    registration of the call handler. *)
Theorem X10_handlers_are_registered_before_connecting
    (env : gmap string string) (connect : option JsError)
    (before after : list Startup.Event) :
  fst (Startup.startup env connect) = before ++ Startup.Connect :: after ->
  In (Startup.NewLinkupClient (env !! "LINKUP_API_KEY")) before
  /\ Startup.not_env (env !! "LINKUP_API_KEY") = false
  /\ In (Startup.SetRequestHandler Startup.ListToolsRequestSchema) before
  /\ In (Startup.SetRequestHandler Startup.CallToolRequestSchema) before.
Proof.
  unfold Startup.startup.
  destruct (Startup.not_env (env !! "LINKUP_API_KEY")) eqn:Hguard.
  - destruct before; discriminate.
  - intros Hsplit.
    assert (Hprefix : exists rest,
               [ Startup.NewLinkupClient (env !! "LINKUP_API_KEY");
                 Startup.NewServer "deep-search-mcp" "0.1.0";
                 Startup.SetRequestHandler Startup.ListToolsRequestSchema;
                 Startup.SetRequestHandler Startup.CallToolRequestSchema;
                 Startup.NewStdioServerTransport;
                 Startup.Connect ] ++ rest
               = before ++ Startup.Connect :: after).
    { destruct connect as [error|]; simpl in Hsplit; eexists; exact Hsplit. }
    clear Hsplit. destruct Hprefix as [rest Hsplit].
    destruct before as [|e1 [|e2 [|e3 [|e4 [|e5 before]]]]];
      simpl in Hsplit; try discriminate Hsplit.
    injection Hsplit as <- <- <- <- <- _.
    simpl. tauto.
Qed.

Lemma X10_handlers_are_registered_before_connecting_witness :
  In (Startup.NewLinkupClient (secret_env !! "LINKUP_API_KEY")) loaded_with_secret
  /\ Startup.not_env (secret_env !! "LINKUP_API_KEY") = false
  /\ In (Startup.SetRequestHandler Startup.ListToolsRequestSchema) loaded_with_secret
  /\ In (Startup.SetRequestHandler Startup.CallToolRequestSchema) loaded_with_secret.
Proof.
  apply (X10_handlers_are_registered_before_connecting secret_env
           (Some (Error "EPIPE")) loaded_with_secret
           [Startup.ConsoleError "Server error:" (Error "EPIPE")]).
  reflexivity.
Defined.



(** ** Coercion and defaults, seen from the caller *)



(** X8. For arguments that satisfy the input schema, [maxResults] is the
    given [max_results] unless that number is zero or [NaN]; in that case,
    and when [max_results] is left out, it is 5, which is the default that
    the schema declares. *)
Theorem X8_max_results_of_schema_instances (fields : list (string * value)) :
  Schema.valid deep_search_schema (VObject fields) = true ->
  maxResults (call_with "deep_search" fields)
  = match Schema.lookup "max_results" fields with
    | Some (VNumber x) => if Num.to_boolean x then x else Num.of_Z 5
    | _ => Num.of_Z 5
    end
  /\ (Schema.lookup "max_results" fields = None ->
      declared_default deep_search_schema "max_results"
      = Some (VNumber (maxResults (call_with "deep_search" fields)))).
Proof.
  intros Hvalid.
  destruct (schema_instances _ Hvalid) as (fields' & [= <-] & _ & Hnumber).
  unfold maxResults. rewrite lookup_call_with.
  destruct (Schema.lookup "max_results" fields) as [m|].
  - destruct (Hnumber m eq_refl) as [x ->].
    split; [reflexivity|discriminate].
  - split; [reflexivity|]. intros _. reflexivity.
Qed.

Lemma X8_max_results_of_schema_instances_witness :
  maxResults (call_with "deep_search" [("query", VString "q")])
  = match Schema.lookup "max_results" [("query", VString "q")] with
    | Some (VNumber x) => if Num.to_boolean x then x else Num.of_Z 5
    | _ => Num.of_Z 5
    end
  /\ (Schema.lookup "max_results" [("query", VString "q")] = None ->
      declared_default deep_search_schema "max_results"
      = Some (VNumber (maxResults (call_with "deep_search" [("query", VString "q")])))).
Proof.
  apply (X8_max_results_of_schema_instances [("query", VString "q")]).
  reflexivity.
Defined.
